(** * PtyKit: the pseudoterminal handshake of [Sources/Cstdlib/test.c]

    The C program under study is

<<
    #include "BridgingHeader.h"

    int main() {
      int fd = posix_openpt(O_RDWR);
      grantpt(fd);
      unlockpt(fd);
      printf("%s\n", ptsname(fd));
    }
>>

    It is embedded as a finite tree of library calls ([prog]) that is run
    against an arbitrary operating system ([OS]).  A run yields the trace of
    calls with the values they returned, and the way [main] ended.  Standard
    output and the table of open master descriptors are read off the trace. *)

From Stdlib Require Import ZArith List String Ascii Bool Lia.
Import ListNotations.
Local Open Scope string_scope.
Local Open Scope list_scope.
Local Open Scope Z_scope.

Set Implicit Arguments.

(** ** C data *)

(** [int]: no arithmetic is ever done on the descriptor, it is only handed
    from one call to the next, so the value is kept as it was returned. *)
Definition int : Type := Z.

(** [char *]: [None] is the null pointer. *)
Definition cstring : Type := option string.

(** The open flags of <fcntl.h>.  Their values belong to the platform. *)
Record fcntl : Type := { O_RDWR : int; O_NONBLOCK : int }.

Definition linux_fcntl : fcntl := {| O_RDWR := 2; O_NONBLOCK := 2048 |}.
Definition darwin_fcntl : fcntl := {| O_RDWR := 2; O_NONBLOCK := 4 |}.

(** A flag word [word] includes [flag] when every bit of [flag] is set. *)
Definition has_flag (flag word : int) : bool := Z.land word flag =? flag.

(** The line feed, and the format string ["%s\n"]. *)
Definition LF : ascii := "010"%char.
Definition fmt_s_nl : string := String "%" (String "s" (String LF EmptyString)).

(** ** The library interface *)

(** The four functions BridgingHeader.h declares, [printf] of <stdio.h> with
    the single variadic argument [main] gives it, and [close], which the
    header does not declare and [main] never calls: it is part of the
    interface so that the descriptor table can say what releasing means. *)
Inductive call : Type :=
| posix_openpt (oflag : int)
| grantpt (fd : int)
| unlockpt (fd : int)
| ptsname (fd : int)
| printf (format : string) (arg : cstring)
| close (fd : int).

(** What each call returns: [ptsname] a [char *], the others an [int]. *)
Definition resp (c : call) : Type :=
  match c with
  | ptsname _ => cstring
  | _ => int
  end.

Inductive retval : Type :=
| RInt (n : int)
| RPtr (s : cstring)
| RNone.

Definition to_ret (c : call) : resp c -> retval :=
  match c return resp c -> retval with
  | ptsname _ => fun s => RPtr s
  | posix_openpt _ => fun n => RInt n
  | grantpt _ => fun n => RInt n
  | unlockpt _ => fun n => RInt n
  | printf _ _ => fun n => RInt n
  | close _ => fun n => RInt n
  end.

(** One entry of a trace.  [RNone] marks a call that was issued but whose
    behaviour C leaves undefined, so that nothing came back. *)
Record event : Type := Ev { ev_call : call; ev_ret : retval }.

(** ** [printf] *)

(** The formatted output for the conversions [%s] and [%%].  [None] is
    undefined behaviour: a [%s] whose argument is missing or is the null
    pointer (C11 7.21.6.1p8 wants a pointer to a character array), or a
    conversion outside this fragment. *)
Fixpoint vformat (fmt : string) (args : list cstring) : option string :=
  match fmt with
  | EmptyString => Some EmptyString
  | String c rest =>
      if (c =? "%")%char then
        match rest with
        | EmptyString => None
        | String d rest' =>
            if (d =? "s")%char then
              match args with
              | Some s :: args' => option_map (append s) (vformat rest' args')
              | _ => None
              end
            else if (d =? "%")%char then
              option_map (String "%") (vformat rest' args)
            else None
        end
      else option_map (String c) (vformat rest args)
  end.

Definition is_some {A : Type} (o : option A) : bool :=
  match o with Some _ => true | None => false end.

(** Whether C gives the call a meaning at all.  A null pointer for [%s] has
    none (C11 7.1.4p1 and 7.21.6.1p9): one C library prints a placeholder,
    and a compiler that rewrites [printf("%s\n", p)] into [puts(p)] produces
    a program that faults.  The four pseudoterminal functions are defined on
    every argument: on a value that is not an open master they return an
    error. *)
Definition defined (c : call) : bool :=
  match c with
  | printf format arg => is_some (vformat format [arg])
  | _ => true
  end.

(** ** Programs *)

Inductive prog (A : Type) : Type :=
| Ret (a : A)
| Call (c : call) (k : resp c -> prog A).

Arguments Ret {A} a.
Arguments Call {A} c k.

Fixpoint bind {A B : Type} (p : prog A) (f : A -> prog B) : prog B :=
  match p with
  | Ret a => f a
  | Call c k => Call c (fun x => bind (k x) f)
  end.

Definition invoke (c : call) : prog (resp c) := Call c (fun x => Ret x).

(** Sequencing, written the way the statements of [main] follow one
    another. *)
Declare Scope prog_scope.
Delimit Scope prog_scope with prog.
Notation "x <- p ;; q" := (bind p (fun x => q))
  (at level 61, p at next level, right associativity) : prog_scope.
Notation "p ;; q" := (bind p (fun _ => q))
  (at level 61, right associativity) : prog_scope.

(** ** Runs *)

Inductive outcome (A : Type) : Type :=
| Exited (status : A)
| Undefined.

Arguments Exited {A} status.
Arguments Undefined {A}.

(** An operating system over a state [W] answers every call. *)
Record OS (W : Type) : Type := { syscall : forall c : call, W -> resp c * W }.

Record result (W A : Type) : Type :=
  { trace : list event; ending : outcome A; final : W }.

Fixpoint run {W A : Type} (os : OS W) (p : prog A) (w : W) : result W A :=
  match p with
  | Ret a => {| trace := []; ending := Exited a; final := w |}
  | Call c k =>
      if defined c then
        let (x, w') := syscall os c w in
        let r := run os (k x) w' in
        {| trace := Ev c (to_ret c x) :: trace r;
           ending := ending r;
           final := final r |}
      else
        {| trace := [Ev c RNone]; ending := Undefined; final := w |}
  end.

(** ** The program *)

Section Program.

Variable fl : fcntl.

(** Control reaches the closing brace of [main]: the status is 0
    (C99 5.1.2.2.3). *)
Definition main : prog int :=
  (fd <- invoke (posix_openpt (O_RDWR fl)) ;;
   invoke (grantpt fd) ;;
   invoke (unlockpt fd) ;;
   p <- invoke (ptsname fd) ;;
   invoke (printf fmt_s_nl p) ;;
   Ret 0)%prog.

End Program.

(** The C runtime starts [main] with the command line, the environment and
    the standard streams in place; [main] has an empty parameter list and
    reads none of them. *)
Record process : Type :=
  { argv : list string; envp : list string; stdin : string }.

Definition start (fl : fcntl) (ps : process) : prog int := main fl.

(** ** What is observed of a run *)

(** The calls in the order they were issued. *)
Definition calls (t : list event) : list call := map ev_call t.

(** The bytes a completed [printf] hands to the standard output stream. *)
Definition printed (e : event) : string :=
  match ev_call e, ev_ret e with
  | printf format arg, RInt _ =>
      match vformat format [arg] with
      | Some s => s
      | None => EmptyString
      end
  | _, _ => EmptyString
  end.

Definition stdout_of (t : list event) : string :=
  fold_right (fun e out => append (printed e) out) EmptyString t.

(** The table of open master descriptors: a successful [posix_openpt]
    enters the descriptor it returned, a successful [close] removes its
    argument, nothing else touches the table. *)
Definition fd_step (fds : list int) (e : event) : list int :=
  match ev_call e, ev_ret e with
  | posix_openpt _, RInt fd => if 0 <=? fd then fd :: fds else fds
  | close fd, RInt 0 => remove Z.eq_dec fd fds
  | _, _ => fds
  end.

Definition open_masters (base : list int) (t : list event) : list int :=
  fold_left fd_step t base.

Definition is_close (c : call) : bool :=
  match c with close _ => true | _ => false end.

Definition is_openpt (c : call) : bool :=
  match c with posix_openpt _ => true | _ => false end.

(** The flag words given to [posix_openpt]. *)
Definition openpt_flags (t : list event) : list int :=
  flat_map (fun e => match ev_call e with
                     | posix_openpt oflag => [oflag]
                     | _ => []
                     end) t.

(** The descriptors [posix_openpt] returned, failures (-1) included. *)
Definition openpt_results (t : list event) : list int :=
  flat_map (fun e => match ev_call e, ev_ret e with
                     | posix_openpt _, RInt fd => [fd]
                     | _, _ => []
                     end) t.

(** The descriptors [ptsname] was applied to, and what it returned. *)
Definition ptsname_args (t : list event) : list int :=
  flat_map (fun e => match ev_call e with
                     | ptsname fd => [fd]
                     | _ => []
                     end) t.

Definition ptsname_results (t : list event) : list cstring :=
  flat_map (fun e => match ev_call e, ev_ret e with
                     | ptsname _, RPtr p => [p]
                     | _, _ => []
                     end) t.

(** The values handed to [printf] for its [%s]. *)
Definition printf_args (t : list event) : list cstring :=
  flat_map (fun e => match ev_call e with
                     | printf _ arg => [arg]
                     | _ => []
                     end) t.

(** A grant or an unlock step came back with an error. *)
Definition step_failed (e : event) : bool :=
  match ev_call e, ev_ret e with
  | grantpt _, RInt r => negb (r =? 0)
  | unlockpt _, RInt r => negb (r =? 0)
  | _, _ => false
  end.

Definition handshake_failed (t : list event) : bool := existsb step_failed t.

(** [posix_openpt] came back with an error. *)
Definition openpt_failed (t : list event) : bool :=
  existsb (fun fd => fd <? 0) (openpt_results t).

(** [main] reports an error to whoever started it: a status other than 0. *)
Definition reports_error (o : outcome int) : bool :=
  match o with
  | Exited status => negb (status =? 0)
  | Undefined => false
  end.

(** ** Readings of a trace used by the statements *)

(** The trace of a run in which the four calls returned [fd], [g], [u] and
    [p]; [n] is what [printf] returned when it was given a string. *)
Definition handshake (fl : fcntl) (fd g u : int) (p : cstring) (n : int)
  : list event :=
  [ Ev (posix_openpt (O_RDWR fl)) (RInt fd);
    Ev (grantpt fd) (RInt g);
    Ev (unlockpt fd) (RInt u);
    Ev (ptsname fd) (RPtr p);
    Ev (printf fmt_s_nl p) (if is_some p then RInt n else RNone) ].

Definition no_close (t : list event) : bool :=
  negb (existsb (fun e => is_close (ev_call e)) t).

(** [posix_openpt] returns a descriptor, which is not negative, or -1. *)
Definition succeeded (fd : int) : bool := 0 <=? fd.

Definition count_openpt (t : list event) : nat :=
  List.length (filter is_openpt (calls t)).

(** Every [posix_openpt] of the trace asked for [flag]. *)
Definition requests (flag : int) (t : list event) : bool :=
  forallb (has_flag flag) (openpt_flags t).

(** Every master a successful [posix_openpt] returned is gone from the
    table built from the empty baseline. *)
Definition released (t : list event) : bool :=
  forallb (fun fd => negb (existsb (Z.eqb fd) (open_masters [] t)))
          (filter succeeded (openpt_results t)).

(** As many masters are open after the trace as before. *)
Definition back_to_baseline (base : list int) (t : list event) : bool :=
  (List.length (open_masters base t) =? List.length base)%nat.

(** A failed grant or unlock step has the master closed and an error
    returned. *)
Definition closes_on_failure (W : Type) (r : result W int) : Prop :=
  handshake_failed (trace r) = true ->
  released (trace r) = true /\ reports_error (ending r) = true.

(** An allocation failure: the master, the grant or the unlock step came
    back with an error. *)
Definition allocation_failed (t : list event) : bool :=
  openpt_failed t || handshake_failed t.

(** A single [posix_openpt], and an error reported to the caller when the
    allocation failed. *)
Definition surfaces_failure (W : Type) (r : result W int) : Prop :=
  count_openpt (trace r) = 1%nat /\
  (allocation_failed (trace r) = true -> reports_error (ending r) = true).

(** ** A small pseudoterminal kernel

    Concrete operating systems to run [main] against.  The kernel hands out
    the lowest unused descriptor for a new master as long as a slave name is
    left, answers EBADF (-1, or the null pointer) for a descriptor that is
    not an open master, and lets [grantpt] succeed only when it may change
    the owner of the slave. *)
Record kernel : Type :=
  { free_slaves : list string;
    next_fd : int;
    masters : list (int * string);
    may_chown : bool }.

Fixpoint lookup_master (fd : int) (ms : list (int * string)) : cstring :=
  match ms with
  | [] => None
  | (fd', path) :: ms' => if fd' =? fd then Some path else lookup_master fd ms'
  end.

Definition drop_master (fd : int) (ms : list (int * string)) : list (int * string) :=
  filter (fun m => negb (fst m =? fd)) ms.

Definition kernel_call (c : call) : kernel -> resp c * kernel :=
  match c return kernel -> resp c * kernel with
  | posix_openpt _ => fun k =>
      match free_slaves k with
      | [] => (-1, k)
      | path :: rest =>
          (next_fd k,
           {| free_slaves := rest;
              next_fd := next_fd k + 1;
              masters := (next_fd k, path) :: masters k;
              may_chown := may_chown k |})
      end
  | grantpt fd => fun k =>
      (if is_some (lookup_master fd (masters k)) && may_chown k then 0 else -1, k)
  | unlockpt fd => fun k =>
      (if is_some (lookup_master fd (masters k)) then 0 else -1, k)
  | ptsname fd => fun k => (lookup_master fd (masters k), k)
  | printf format arg => fun k =>
      (match vformat format [arg] with
       | Some s => Z.of_nat (String.length s)
       | None => -1
       end, k)
  | close fd => fun k =>
      if is_some (lookup_master fd (masters k)) then
        (0, {| free_slaves := free_slaves k;
               next_fd := next_fd k;
               masters := drop_master fd (masters k);
               may_chown := may_chown k |})
      else (-1, k)
  end.

Definition kernel_os : OS kernel := {| syscall := kernel_call |}.

(** Descriptors 0, 1 and 2 are taken; one slave is free. *)
Definition healthy : kernel :=
  {| free_slaves := ["/dev/pts/0"]; next_fd := 3; masters := []; may_chown := true |}.

(** As [healthy], but [grantpt] is refused (EACCES). *)
Definition no_chown : kernel :=
  {| free_slaves := ["/dev/pts/0"]; next_fd := 3; masters := []; may_chown := false |}.

(** Every pseudoterminal is in use: [posix_openpt] fails. *)
Definition exhausted : kernel :=
  {| free_slaves := []; next_fd := 3; masters := []; may_chown := true |}.

(** Two ways of starting the program. *)
Definition shell_a : process :=
  {| argv := ["test"]; envp := ["TERM=xterm"]; stdin := EmptyString |}.

Definition shell_b : process :=
  {| argv := ["test"; "-v"]; envp := []; stdin := "ignored" |}.

(** ** A conforming [ptsname] *)

(** A negative value is no descriptor: [ptsname] answers it with the null
    pointer (EBADF).  The trace shows no [ptsname] that did otherwise. *)
Definition ptsname_rejects_bad (t : list event) : bool :=
  forallb (fun e => match ev_call e, ev_ret e with
                    | ptsname fd, RPtr (Some _) => 0 <=? fd
                    | _, _ => true
                    end) t.

(** * The bridging header

    [Sources/Cstdlib/BridgingHeader.h] as the preprocessor sees it after
    the comments are gone: conditionals, macro definitions, inclusions of
    system headers and the four prototypes. *)

Inductive ctype : Type := Tint | Tchar_ptr.

Record prototype : Type :=
  { fn_name : string;
    fn_param : ctype;
    fn_result : ctype;
    fn_attrs : list string }.

Inductive line : Type :=
| Ifndef (m : string)
| Ifdef (m : string)
| Endif
| Define (m : string) (body : string)
| Include_sys (h : string)
| Extern (p : prototype).

(** [extern int posix_openpt (int __oflag) __wur;] and the three after it. *)
Definition extern_posix_openpt : prototype :=
  {| fn_name := "posix_openpt"; fn_param := Tint; fn_result := Tint;
     fn_attrs := ["__wur"] |}.

Definition extern_grantpt : prototype :=
  {| fn_name := "grantpt"; fn_param := Tint; fn_result := Tint;
     fn_attrs := ["__THROW"] |}.

Definition extern_unlockpt : prototype :=
  {| fn_name := "unlockpt"; fn_param := Tint; fn_result := Tint;
     fn_attrs := ["__THROW"] |}.

Definition extern_ptsname : prototype :=
  {| fn_name := "ptsname"; fn_param := Tint; fn_result := Tchar_ptr;
     fn_attrs := ["__THROW"; "__wur"] |}.

Definition hack_prototypes : list prototype :=
  [ extern_posix_openpt; extern_grantpt; extern_unlockpt; extern_ptsname ].

(** The header.  Each [#define] has an empty replacement list. *)
Definition BridgingHeader : list line :=
  [ Ifndef "_cstdlib_shim_h";
    Define "_cstdlib_shim_h" EmptyString;
    Ifdef "linux";
    Define "_GNU_SOURCE" EmptyString;
    Define "_PTYKIT_HACK" EmptyString;
    Endif;
    Include_sys "stdlib.h";
    Include_sys "fcntl.h";
    Include_sys "stdio.h";
    Ifdef "_PTYKIT_HACK";
    Extern extern_posix_openpt;
    Extern extern_grantpt;
    Extern extern_unlockpt;
    Extern extern_ptsname;
    Endif;
    Endif ].

(** ** The preprocessor *)

(** A macro definition: the parameters of a function-like macro, [None]
    for an object-like one, and the replacement list.  The list is spelled
    with one space where its tokens are separated and none at either end,
    so that two replacement lists are identical (C11 6.10.3p1) exactly when
    their spellings are equal, and the empty list is the empty string. *)
Record macro : Type :=
  { m_params : option (list string);
    m_body : string }.

Definition object_like (body : string) : macro :=
  {| m_params := None; m_body := body |}.

(** The macros in force, the latest definition first. *)
Definition macro_env : Type := list (string * macro).

Fixpoint macro_lookup (m : string) (env : macro_env) : option macro :=
  match env with
  | [] => None
  | (m', def) :: env' =>
      if String.eqb m' m then Some def else macro_lookup m env'
  end.

Definition is_defined (m : string) (env : macro_env) : bool :=
  is_some (macro_lookup m env).

(** [old] is the object-like macro with the replacement list [body]: the
    only definition over which [#define] of that list is no redefinition
    (C11 6.10.3p2). *)
Definition same_object (old : macro) (body : string) : bool :=
  match m_params old with
  | None => String.eqb (m_body old) body
  | Some _ => false
  end.

(** [m] is defined already, and not as the object-like macro with the
    replacement list [body]: as a function-like macro, or with another
    list. *)
Definition conflicts (m body : string) (env : macro_env) : bool :=
  match macro_lookup m env with
  | Some old => negb (same_object old body)
  | None => false
  end.

(** What reaches the compiler proper: a system header, with the macros that
    were in force when it was included, or a prototype. *)
Inductive item : Type :=
| Seen_include (h : string) (env : macro_env)
| Seen_extern (p : prototype).

(** What the standard wants diagnosed of the lines modelled here: a macro
    defined again in another way (C11 6.10.3p2), or an [#endif] that
    closes nothing. *)
Inductive diagnostic : Type :=
| Redefined (m : string)
| Stray_endif.

(** [nest] has one entry for every open conditional, the innermost first:
    whether its group is being processed. *)
Record cpp : Type :=
  { macros : macro_env;
    nest : list bool;
    emitted : list item;
    diagnostics : list diagnostic }.

Definition active (st : cpp) : bool :=
  match nest st with
  | [] => true
  | b :: _ => b
  end.

Definition boot (env : macro_env) : cpp :=
  {| macros := env; nest := []; emitted := []; diagnostics := [] |}.

Section Preprocessor.

(** What including a system header does to the macros. *)
Variable sys : string -> macro_env -> macro_env.

(** A conditional inside a skipped group is skipped whatever it tests. *)
Definition enter (taken : bool) (st : cpp) : cpp :=
  {| macros := macros st;
     nest := (active st && taken) :: nest st;
     emitted := emitted st;
     diagnostics := diagnostics st |}.

Definition leave (st : cpp) : cpp :=
  match nest st with
  | [] =>
      {| macros := macros st;
         nest := [];
         emitted := emitted st;
         diagnostics := diagnostics st ++ [Stray_endif] |}
  | _ :: outer =>
      {| macros := macros st;
         nest := outer;
         emitted := emitted st;
         diagnostics := diagnostics st |}
  end.

Definition define (m body : string) (st : cpp) : cpp :=
  {| macros := (m, object_like body) :: macros st;
     nest := nest st;
     emitted := emitted st;
     diagnostics :=
       diagnostics st
       ++ (if conflicts m body (macros st) then [Redefined m] else []) |}.

Definition include_sys (h : string) (st : cpp) : cpp :=
  {| macros := sys h (macros st);
     nest := nest st;
     emitted := emitted st ++ [Seen_include h (macros st)];
     diagnostics := diagnostics st |}.

Definition extern (p : prototype) (st : cpp) : cpp :=
  {| macros := macros st;
     nest := nest st;
     emitted := emitted st ++ [Seen_extern p];
     diagnostics := diagnostics st |}.

Definition step (st : cpp) (l : line) : cpp :=
  match l with
  | Ifndef m => enter (negb (is_defined m (macros st))) st
  | Ifdef m => enter (is_defined m (macros st)) st
  | Endif => leave st
  | Define m body => if active st then define m body st else st
  | Include_sys h => if active st then include_sys h st else st
  | Extern p => if active st then extern p st else st
  end.

Definition preprocess (ls : list line) (st : cpp) : cpp :=
  fold_left step ls st.

(** Including system headers neither defines nor removes the macro [m]. *)
Definition leaves_alone (m : string) : Prop :=
  forall (h : string) (env : macro_env),
    macro_lookup m (sys h env) = macro_lookup m env.

End Preprocessor.

(** The prototypes that reached the compiler, in order. *)
Definition externs (out : list item) : list prototype :=
  flat_map (fun i => match i with
                     | Seen_extern p => [p]
                     | Seen_include _ _ => []
                     end) out.

(** The system headers that were included, in order. *)
Definition includes (out : list item) : list string :=
  flat_map (fun i => match i with
                     | Seen_include h _ => [h]
                     | Seen_extern _ => []
                     end) out.

(** Whether [m] was defined when the first system header was included;
    [None] when none was. *)
Fixpoint defined_at_first_include (m : string) (out : list item) : option bool :=
  match out with
  | [] => None
  | Seen_include _ env :: _ => Some (is_defined m env)
  | Seen_extern _ :: out' => defined_at_first_include m out'
  end.

Definition is_stray (d : diagnostic) : bool :=
  match d with
  | Stray_endif => true
  | Redefined _ => false
  end.

(** System headers of a C library in the style of glibc: the first to be
    included defines the attribute macros. *)
Definition glibc (h : string) (env : macro_env) : macro_env :=
  if is_defined "_FEATURES_H" env then env
  else ("__wur", object_like EmptyString)
         :: ("__THROW", object_like "__attribute__ ((__nothrow__))")
         :: ("_FEATURES_H", object_like "1") :: env.

(** The macros a compiler in its GNU mode predefines on Linux, and on
    Darwin, as far as the header looks at them. *)
Definition gnu_linux : macro_env :=
  [("linux", object_like "1"); ("__linux__", object_like "1")].

Definition apple_darwin : macro_env := [("__APPLE__", object_like "1")].

(** [_GNU_SOURCE] as the command line can define it before the header is
    read: [-D_GNU_SOURCE], which gives it the replacement list [1], an
    object-like macro with an empty list, and a function-like macro with
    an empty list. *)
Definition gnu_source_1 : macro_env :=
  ("_GNU_SOURCE", object_like "1") :: gnu_linux.

Definition gnu_source_empty : macro_env :=
  ("_GNU_SOURCE", object_like EmptyString) :: gnu_linux.

Definition gnu_source_function_like : macro_env :=
  ("_GNU_SOURCE", {| m_params := Some []; m_body := EmptyString |})
    :: gnu_linux.

(** * Properties *)

(** ** Formatting *)

Lemma vformat_s_nl (p : string) :
  vformat fmt_s_nl [Some p] = Some (p ++ String LF EmptyString)%string.
Proof. reflexivity. Qed.

Lemma vformat_s_nl_null : vformat fmt_s_nl [None] = None.
Proof. reflexivity. Qed.

Lemma append_empty_r (s : string) : (s ++ EmptyString)%string = s.
Proof. induction s as [|c s IH]; simpl; [reflexivity | now rewrite IH]. Qed.

Lemma has_flag_refl (flag : int) : has_flag flag flag = true.
Proof. unfold has_flag. rewrite Z.land_diag. apply Z.eqb_refl. Qed.

(** ** Sequencing *)

(** Running [p] and then [f]: the trace of [p] comes first, and [f] runs
    from where [p] ended, unless [p] ran into undefined behaviour. *)
Lemma run_bind (W A B : Type) (os : OS W) (p : prog A) (f : A -> prog B) :
  forall w : W,
    run os (bind p f) w
    = match ending (run os p w) with
      | Exited a =>
          {| trace := trace (run os p w)
                      ++ trace (run os (f a) (final (run os p w)));
             ending := ending (run os (f a) (final (run os p w)));
             final := final (run os (f a) (final (run os p w))) |}
      | Undefined =>
          {| trace := trace (run os p w);
             ending := Undefined;
             final := final (run os p w) |}
      end.
Proof.
  induction p as [a|c k IH]; intros w; simpl.
  - destruct (run os (f a) w); reflexivity.
  - destruct (defined c); [|reflexivity].
    destruct (syscall os c w) as [x w']; simpl.
    rewrite IH. destruct (ending (run os (k x) w')); reflexivity.
Qed.

(** ** The shape of every run *)

(** Whatever the operating system answers, the trace of [main] is a
    [handshake]; the run comes to its end exactly when [ptsname] returned a
    string. *)
Lemma run_main_shape (fl : fcntl) (W : Type) (os : OS W) (w : W) :
  exists fd g u p n,
    trace (run os (main fl) w) = handshake fl fd g u p n /\
    ending (run os (main fl) w) = if is_some p then Exited 0 else Undefined.
Proof.
  unfold main, handshake; simpl.
  destruct (syscall os (posix_openpt (O_RDWR fl)) w) as [fd w1]; simpl.
  destruct (syscall os (grantpt fd) w1) as [g w2]; simpl.
  destruct (syscall os (unlockpt fd) w2) as [u w3]; simpl.
  destruct (syscall os (ptsname fd) w3) as [p w4]; simpl.
  destruct p as [path|]; simpl.
  - destruct (syscall os (printf fmt_s_nl (Some path)) w4) as [n w5]; simpl.
    exists fd, g, u, (Some path), n; split; reflexivity.
  - exists fd, g, u, None, 0; split; reflexivity.
Qed.

(** Replace the run of [main] on [os] from [w] by its shape. *)
Ltac by_shape fl os w fd g u p n :=
  let Ht := fresh "Htrace" in
  let He := fresh "Hending" in
  destruct (run_main_shape fl os w) as (fd & g & u & p & n & Ht & He);
  rewrite ?Ht, ?He in *.

Lemma handshake_calls fl fd g u p n :
  calls (handshake fl fd g u p n)
  = [ posix_openpt (O_RDWR fl); grantpt fd; unlockpt fd; ptsname fd;
      printf fmt_s_nl p ].
Proof. reflexivity. Qed.

Lemma handshake_stdout fl fd g u p n :
  stdout_of (handshake fl fd g u p n)
  = match p with
    | Some path => (path ++ String LF EmptyString)%string
    | None => EmptyString
    end.
Proof.
  destruct p as [path|]; simpl; [|reflexivity].
  unfold stdout_of; simpl. apply append_empty_r.
Qed.

Lemma handshake_no_close fl fd g u p n :
  no_close (handshake fl fd g u p n) = true.
Proof. reflexivity. Qed.

Lemma handshake_openpt_results fl fd g u p n :
  openpt_results (handshake fl fd g u p n) = [fd].
Proof. reflexivity. Qed.

(** ** The descriptor table *)

(** Without a [close] the table only grows: it holds the baseline and, on
    top of it, every descriptor a successful [posix_openpt] returned. *)
Lemma open_masters_no_close (t : list event) :
  forall base : list int,
    no_close t = true ->
    open_masters base t = rev (filter succeeded (openpt_results t)) ++ base.
Proof.
  unfold no_close, open_masters.
  induction t as [|[c r] t IH]; intros base H; simpl in *.
  - reflexivity.
  - rewrite negb_orb in H. apply andb_prop in H. destruct H as [Hc Ht].
    destruct c; simpl in Hc; try discriminate;
      unfold fd_step; simpl; try (now apply IH).
    destruct r as [fd| |]; simpl; try (now apply IH).
    unfold succeeded at 1.
    destruct (0 <=? fd) eqn:E; simpl.
    + rewrite IH by exact Ht. now rewrite <- app_assoc.
    + now apply IH.
Qed.

Lemma handshake_open_masters fl fd g u p n (base : list int) :
  open_masters base (handshake fl fd g u p n)
  = if succeeded fd then fd :: base else base.
Proof.
  rewrite open_masters_no_close by apply handshake_no_close.
  rewrite handshake_openpt_results; simpl.
  destruct (succeeded fd); reflexivity.
Qed.

(** ** Every run of [main] *)

Section AnyRun.

Variable fl : fcntl.
Variable W : Type.
Variable os : OS W.
Variable w : W.

Local Abbreviation this_run := (run os (main fl) w).

(** C1.  On every run the calls are issued in the order [posix_openpt],
    [grantpt], [unlockpt], [ptsname], each of them once: none is skipped and
    none comes before an earlier one. *)
Theorem handshake_order :
  exists fd p,
    calls (trace this_run)
    = [ posix_openpt (O_RDWR fl); grantpt fd; unlockpt fd; ptsname fd;
        printf fmt_s_nl p ].
Proof.
  by_shape fl os w fd g u p n.
  exists fd, p. apply handshake_calls.
Qed.

(** C2, amended.  When [grantpt] or [unlockpt] fails, [main] closes nothing
    and reports no error: it goes on to resolve the slave path on the same
    descriptor, and a master that was opened is still in the table when
    the calls end. *)
Theorem failure_is_ignored (base : list int) :
  handshake_failed (trace this_run) = true ->
  no_close (trace this_run) = true /\
  reports_error (ending this_run) = false /\
  ptsname_args (trace this_run) = openpt_results (trace this_run) /\
  open_masters base (trace this_run)
  = filter succeeded (openpt_results (trace this_run)) ++ base.
Proof.
  intros _.
  by_shape fl os w fd g u p n.
  rewrite handshake_open_masters, handshake_openpt_results.
  repeat split; try reflexivity.
  - destruct p; reflexivity.
  - simpl. destruct (succeeded fd); reflexivity.
Qed.

(** C3, amended.  The flag word given to [posix_openpt] is [O_RDWR] and
    nothing more: read-write is requested, and on a platform whose
    [O_NONBLOCK] is not contained in [O_RDWR], non-blocking is not. *)
Theorem openpt_flags_rdwr_only :
  has_flag (O_NONBLOCK fl) (O_RDWR fl) = false ->
  openpt_flags (trace this_run) = [O_RDWR fl] /\
  requests (O_RDWR fl) (trace this_run) = true /\
  requests (O_NONBLOCK fl) (trace this_run) = false.
Proof.
  intros Hnb.
  by_shape fl os w fd g u p n.
  unfold requests; simpl.
  rewrite has_flag_refl, Hnb. repeat split; reflexivity.
Qed.

(** C4, amended.  [main] never closes: a run leaves the baseline as it was
    and adds the master it opened, so that one more master is open when
    [main] has finished a run in which [posix_openpt] succeeded, and as
    many as before after one in which it failed. *)
Theorem master_never_closed (base : list int) :
  no_close (trace this_run) = true /\
  exists fd,
    openpt_results (trace this_run) = [fd] /\
    open_masters base (trace this_run)
    = (if succeeded fd then fd :: base else base) /\
    List.length (open_masters base (trace this_run))
    = ((if succeeded fd then 1 else 0) + List.length base)%nat.
Proof.
  by_shape fl os w fd g u p n.
  split; [reflexivity|].
  exists fd. rewrite handshake_open_masters.
  repeat split; destruct (succeeded fd); reflexivity.
Qed.

(** C5.  The slave path is resolved on the descriptor [posix_openpt]
    returned: [ptsname] is applied once, to that very value, and between
    the two calls no other master is requested and nothing is closed. *)
Theorem same_pair :
  exists fd p before after,
    trace this_run = before ++ Ev (ptsname fd) (RPtr p) :: after /\
    openpt_results before = [fd] /\
    no_close before = true /\
    openpt_results (trace this_run) = [fd] /\
    ptsname_args (trace this_run) = [fd].
Proof.
  by_shape fl os w fd g u p n.
  exists fd, p,
    [ Ev (posix_openpt (O_RDWR fl)) (RInt fd);
      Ev (grantpt fd) (RInt g);
      Ev (unlockpt fd) (RInt u) ],
    [ Ev (printf fmt_s_nl p) (if is_some p then RInt n else RNone) ].
  repeat split; reflexivity.
Qed.

(** C6.  When [posix_openpt] returns a descriptor, neither [grantpt] nor
    [unlockpt] fails and [ptsname] returns a path, standard output is that
    path followed by one line feed, and nothing else. *)
Theorem stdout_is_slave_path (fd : int) (path : string) :
  openpt_results (trace this_run) = [fd] ->
  succeeded fd = true ->
  handshake_failed (trace this_run) = false ->
  ptsname_results (trace this_run) = [Some path] ->
  stdout_of (trace this_run) = (path ++ String LF EmptyString)%string.
Proof.
  intros Hfd Hok Hhs Hp.
  by_shape fl os w fd' g u p n.
  rewrite handshake_stdout.
  simpl in Hp. injection Hp as ->. reflexivity.
Qed.

(** C7, amended.  [posix_openpt] is called once on every run, whatever it
    returns, so a failure is never retried.  [main] has no error path
    either: whatever value came back goes on to [grantpt], [unlockpt] and
    [ptsname], and a run either ends with status 0 or is the undefined one,
    of which nothing is said. *)
Theorem openpt_once_no_error_path :
  count_openpt (trace this_run) = 1%nat /\
  (exists fd p,
     openpt_results (trace this_run) = [fd] /\
     calls (trace this_run)
     = [ posix_openpt (O_RDWR fl); grantpt fd; unlockpt fd; ptsname fd;
         printf fmt_s_nl p ]) /\
  (ending this_run = Exited 0 \/ ending this_run = Undefined).
Proof.
  by_shape fl os w fd g u p n.
  repeat split.
  - exists fd, p. split; reflexivity.
  - destruct p; [left | right]; reflexivity.
Qed.

(** C8.  Whatever [posix_openpt] returned, -1 included, [grantpt],
    [unlockpt] and [ptsname] are called on that value, and what [ptsname]
    returned, the null pointer included, is what [printf] is given. *)
Theorem no_error_checking (fd : int) (p : cstring) :
  openpt_results (trace this_run) = [fd] ->
  ptsname_results (trace this_run) = [p] ->
  calls (trace this_run)
  = [ posix_openpt (O_RDWR fl); grantpt fd; unlockpt fd; ptsname fd;
      printf fmt_s_nl p ] /\
  printf_args (trace this_run) = [p].
Proof.
  intros Hfd Hp.
  by_shape fl os w fd' g u p' n.
  simpl in Hfd, Hp. injection Hfd as ->. injection Hp as ->.
  split; reflexivity.
Qed.

(** C9, amended.  Whatever [posix_openpt], [grantpt] and [unlockpt]
    returned, when [ptsname] returns a string [main] ends with status 0. *)
Theorem exit_status_zero (path : string) :
  ptsname_results (trace this_run) = [Some path] ->
  ending this_run = Exited 0.
Proof.
  intros Hp.
  by_shape fl os w fd g u p n.
  simpl in Hp. injection Hp as ->. reflexivity.
Qed.

End AnyRun.

(** ** Two runs *)

(** C10.  The calls [main] issues and the bytes it prints depend on the
    operating system only through what [posix_openpt] and [ptsname]
    returned: two runs that agree on these two values, however else their
    systems, command lines, environments and inputs differ, issue the same
    calls, print the same bytes and end the same way. *)
Theorem deterministic_in_os_responses
  (fl : fcntl) (ps1 ps2 : process)
  (W1 W2 : Type) (os1 : OS W1) (os2 : OS W2) (w1 : W1) (w2 : W2) :
  openpt_results (trace (run os1 (start fl ps1) w1))
  = openpt_results (trace (run os2 (start fl ps2) w2)) ->
  ptsname_results (trace (run os1 (start fl ps1) w1))
  = ptsname_results (trace (run os2 (start fl ps2) w2)) ->
  calls (trace (run os1 (start fl ps1) w1))
  = calls (trace (run os2 (start fl ps2) w2)) /\
  stdout_of (trace (run os1 (start fl ps1) w1))
  = stdout_of (trace (run os2 (start fl ps2) w2)) /\
  ending (run os1 (start fl ps1) w1) = ending (run os2 (start fl ps2) w2).
Proof.
  unfold start. intros Hfd Hp.
  by_shape fl os1 w1 fd1 g1 u1 p1 n1.
  by_shape fl os2 w2 fd2 g2 u2 p2 n2.
  simpl in Hfd, Hp. injection Hfd as ->. injection Hp as ->.
  rewrite !handshake_calls, !handshake_stdout. repeat split; reflexivity.
Qed.

(** ** Runs on the small kernel *)

(** A run with a refused [grantpt]: the hypothesis of [failure_is_ignored]
    holds on it. *)
Lemma failure_is_ignored_no_chown :
  handshake_failed (trace (run kernel_os (main linux_fcntl) no_chown)) = true /\
  no_close (trace (run kernel_os (main linux_fcntl) no_chown)) = true /\
  reports_error (ending (run kernel_os (main linux_fcntl) no_chown)) = false /\
  ptsname_args (trace (run kernel_os (main linux_fcntl) no_chown))
  = openpt_results (trace (run kernel_os (main linux_fcntl) no_chown)) /\
  open_masters [] (trace (run kernel_os (main linux_fcntl) no_chown))
  = filter succeeded
      (openpt_results (trace (run kernel_os (main linux_fcntl) no_chown))) ++ [].
Proof.
  split; [reflexivity|].
  apply (@failure_is_ignored linux_fcntl kernel kernel_os no_chown []).
  reflexivity.
Defined.

(** Linux: 2048 is not contained in 2. *)
Lemma openpt_flags_rdwr_only_linux :
  openpt_flags (trace (run kernel_os (main linux_fcntl) healthy)) = [2] /\
  requests 2 (trace (run kernel_os (main linux_fcntl) healthy)) = true /\
  requests 2048 (trace (run kernel_os (main linux_fcntl) healthy)) = false.
Proof.
  apply (@openpt_flags_rdwr_only linux_fcntl kernel kernel_os healthy).
  reflexivity.
Defined.

(** The successful run prints the name of the slave. *)
Lemma stdout_is_slave_path_healthy :
  stdout_of (trace (run kernel_os (main linux_fcntl) healthy))
  = ("/dev/pts/0" ++ String LF EmptyString)%string.
Proof.
  apply (@stdout_is_slave_path linux_fcntl kernel kernel_os healthy 3 "/dev/pts/0");
    reflexivity.
Defined.

(** With every pseudoterminal in use the value is -1 and the pointer is
    null, and the calls are made all the same. *)
Lemma no_error_checking_exhausted :
  calls (trace (run kernel_os (main linux_fcntl) exhausted))
  = [ posix_openpt 2; grantpt (-1); unlockpt (-1); ptsname (-1);
      printf fmt_s_nl None ] /\
  printf_args (trace (run kernel_os (main linux_fcntl) exhausted)) = [None].
Proof.
  apply (@no_error_checking linux_fcntl kernel kernel_os exhausted (-1) None);
    reflexivity.
Defined.

(** A refused [grantpt] does not change the status. *)
Lemma exit_status_zero_no_chown :
  handshake_failed (trace (run kernel_os (main linux_fcntl) no_chown)) = true /\
  ending (run kernel_os (main linux_fcntl) no_chown) = Exited 0.
Proof.
  split; [reflexivity|].
  apply (@exit_status_zero linux_fcntl kernel kernel_os no_chown "/dev/pts/0").
  reflexivity.
Defined.

(** Two runs that differ in how the program was started and in what
    [grantpt] answered. *)
Lemma deterministic_healthy_no_chown :
  calls (trace (run kernel_os (start linux_fcntl shell_a) healthy))
  = calls (trace (run kernel_os (start linux_fcntl shell_b) no_chown)) /\
  stdout_of (trace (run kernel_os (start linux_fcntl shell_a) healthy))
  = stdout_of (trace (run kernel_os (start linux_fcntl shell_b) no_chown)) /\
  ending (run kernel_os (start linux_fcntl shell_a) healthy)
  = ending (run kernel_os (start linux_fcntl shell_b) no_chown).
Proof.
  apply (@deterministic_in_os_responses linux_fcntl shell_a shell_b
           kernel kernel kernel_os kernel_os healthy no_chown);
    reflexivity.
Defined.

(** ** Where the specification and the program part *)

(** C2, as stated, fails: [grantpt] is refused, and [main] still leaves
    descriptor 3 open and ends with status 0. *)
Lemma grant_failure_not_cleaned_up :
  ~ closes_on_failure (run kernel_os (main linux_fcntl) no_chown).
Proof.
  unfold closes_on_failure. intros H.
  destruct (H eq_refl) as [Hreleased _].
  vm_compute in Hreleased. discriminate Hreleased.
Qed.

(** C3, as stated, fails: on Linux the flag word is 2, which is [O_RDWR]
    and has no bit of [O_NONBLOCK] (2048). *)
Lemma nonblock_not_requested :
  requests (O_RDWR linux_fcntl)
           (trace (run kernel_os (main linux_fcntl) healthy))
  && requests (O_NONBLOCK linux_fcntl)
              (trace (run kernel_os (main linux_fcntl) healthy))
  = false.
Proof. reflexivity. Qed.

(** C4, as stated, fails: descriptor 3 is opened and is still open when
    [main] has finished. *)
Lemma master_left_open :
  back_to_baseline [] (trace (run kernel_os (main linux_fcntl) healthy))
  = false.
Proof. reflexivity. Qed.

(** C7, as stated, fails: the grant step of the allocation is refused, and
    the run is a defined one that prints the slave path and ends with
    status 0, so that the caller is told of no failure. *)
Lemma allocation_failure_not_surfaced :
  ~ surfaces_failure (run kernel_os (main linux_fcntl) no_chown).
Proof.
  unfold surfaces_failure. intros [_ H].
  assert (E : ending (run kernel_os (main linux_fcntl) no_chown) = Exited 0)
    by reflexivity.
  specialize (H eq_refl). rewrite E in H. discriminate H.
Qed.

(** C9, as stated, fails: with every pseudoterminal in use [ptsname]
    returns the null pointer, [printf] is given it for [%s], and the run
    does not come to an end with status 0. *)
Lemma exit_status_not_always_zero :
  ending (run kernel_os (main linux_fcntl) exhausted) <> Exited 0.
Proof. vm_compute. discriminate. Qed.

(** * More about [main] *)

Section AnyRunMore.

Variable fl : fcntl.
Variable W : Type.
Variable os : OS W.
Variable w : W.

Local Abbreviation this_run := (run os (main fl) w).

(** X1.  The run of [main] comes to its end, with status 0, exactly when
    [ptsname] returned a string, and runs into undefined behaviour exactly
    when it returned the null pointer. *)
Theorem meaning_iff_ptsname_returns :
  (ending this_run = Exited 0
   <-> exists path, ptsname_results (trace this_run) = [Some path]) /\
  (ending this_run = Undefined
   <-> ptsname_results (trace this_run) = [None]).
Proof.
  by_shape fl os w fd g u p n.
  destruct p as [path|]; simpl; repeat split; intros H;
    try discriminate; try reflexivity.
  - exists path. reflexivity.
  - destruct H as [path H]. discriminate.
Qed.

(** X2.  When [posix_openpt] fails and [ptsname] answers the failed value
    with the null pointer, as it must, [main] hands that null pointer to
    [printf]: the run is undefined and nothing has been printed. *)
Theorem failed_allocation_is_undefined :
  openpt_failed (trace this_run) = true ->
  ptsname_rejects_bad (trace this_run) = true ->
  ending this_run = Undefined /\
  stdout_of (trace this_run) = EmptyString /\
  printf_args (trace this_run) = [None].
Proof.
  intros Hfail Hbad.
  by_shape fl os w fd g u p n.
  unfold openpt_failed in Hfail. simpl in Hfail, Hbad.
  rewrite orb_false_r in Hfail.
  destruct p as [path|].
  - simpl in Hbad. rewrite andb_true_r in Hbad.
    apply Z.ltb_lt in Hfail. apply Z.leb_le in Hbad. lia.
  - repeat split; reflexivity.
Qed.

End AnyRunMore.

Lemma failed_allocation_is_undefined_exhausted :
  ending (run kernel_os (main linux_fcntl) exhausted) = Undefined /\
  stdout_of (trace (run kernel_os (main linux_fcntl) exhausted)) = EmptyString /\
  printf_args (trace (run kernel_os (main linux_fcntl) exhausted)) = [None].
Proof.
  apply (@failed_allocation_is_undefined linux_fcntl kernel kernel_os exhausted);
    reflexivity.
Defined.

(** * The header *)

Lemma preprocess_cons sys (l : line) (ls : list line) (st : cpp) :
  preprocess sys (l :: ls) st = preprocess sys ls (step sys st l).
Proof. reflexivity. Qed.

Lemma preprocess_app sys (ls1 ls2 : list line) (st : cpp) :
  preprocess sys (ls1 ++ ls2) st = preprocess sys ls2 (preprocess sys ls1 st).
Proof. apply fold_left_app. Qed.

Lemma is_defined_cons (m m' : string) (def : macro) (env : macro_env) :
  is_defined m ((m', def) :: env) = String.eqb m' m || is_defined m env.
Proof.
  unfold is_defined; simpl. destruct (String.eqb m' m); reflexivity.
Qed.

Lemma macro_lookup_cons (m m' : string) (def : macro) (env : macro_env) :
  macro_lookup m ((m', def) :: env)
  = if String.eqb m' m then Some def else macro_lookup m env.
Proof. reflexivity. Qed.

Lemma conflicts_cons (m body m' : string) (def : macro) (env : macro_env) :
  conflicts m body ((m', def) :: env)
  = if String.eqb m' m then negb (same_object def body)
    else conflicts m body env.
Proof.
  unfold conflicts; simpl. destruct (String.eqb m' m); reflexivity.
Qed.

Lemma conflicts_undefined (m body : string) (env : macro_env) :
  is_defined m env = false -> conflicts m body env = false.
Proof.
  unfold is_defined, conflicts.
  destruct (macro_lookup m env); [discriminate | reflexivity].
Qed.

Section HeaderFacts.

Variable sys : string -> macro_env -> macro_env.

Lemma is_defined_sys (m h : string) (env : macro_env) :
  leaves_alone sys m -> is_defined m (sys h env) = is_defined m env.
Proof. intros K. unfold is_defined. now rewrite K. Qed.

(** Compare the names of macros that are written out. *)
Ltac eval_names :=
  repeat rewrite is_defined_cons;
  repeat rewrite conflicts_cons;
  cbn [String.eqb Ascii.eqb Bool.eqb andb orb negb].

(** One line of the header, on a state that is written out. *)
Ltac pp_step :=
  rewrite preprocess_cons;
  cbn [step enter leave define include_sys extern active
       macros nest emitted diagnostics andb negb];
  eval_names.

(** Settle the tests the line has left: by what is known, by what the
    system headers leave alone, or by cases. *)
Ltac use_tests :=
  repeat match goal with
         | H : is_defined ?m ?e = _ |- context [is_defined ?m ?e] =>
             rewrite H
         | H : is_defined ?m ?e = false |- context [conflicts ?m ?b ?e] =>
             rewrite (@conflicts_undefined m b e H)
         | H : leaves_alone sys ?m |- context [is_defined ?m (sys ?h ?e)] =>
             rewrite (@is_defined_sys m h e H); eval_names
         | |- context [is_defined ?m (sys ?h ?e)] =>
             destruct (is_defined m (sys h e)) eqn:?
         | |- context [is_defined ?m ?e] =>
             is_var e; destruct (is_defined m e) eqn:?
         end.

Ltac pp_run := repeat (pp_step; use_tests).

Lemma header_skipped (st : cpp) :
  active st = false \/ is_defined "_cstdlib_shim_h" (macros st) = true ->
  preprocess sys BridgingHeader st = st.
Proof.
  destruct st as [e n o d]. unfold BridgingHeader, active.
  cbn [nest macros].
  intros [H|H].
  - destruct n as [|b n]; [discriminate|]. subst b.
    repeat pp_step. reflexivity.
  - pp_step. rewrite H. destruct n as [|[] n]; repeat pp_step; reflexivity.
Qed.

(** Open the header on a state in which it is processed and its guard is
    not defined; the other states are dealt with by [header_skipped]. *)
Ltac open_header st e n o d :=
  let A := fresh "A" in
  let G := fresh "G" in
  destruct (active st) eqn:A;
  [ destruct (is_defined "_cstdlib_shim_h" (macros st)) eqn:G;
    [ rewrite ?header_skipped by auto
    | destruct st as [e n o d]; unfold active in A; cbn [nest macros] in A, G;
      unfold BridgingHeader;
      (destruct n as [|? n]; [|subst]);
      pp_run ]
  | rewrite ?header_skipped by auto ].

(** X3.  Wherever the header is included and whatever macros are defined,
    every conditional it opens it closes again, and none of its [#endif]
    is left without a conditional to close. *)
Theorem header_balanced (st : cpp) :
  nest (preprocess sys BridgingHeader st) = nest st /\
  existsb is_stray (diagnostics (preprocess sys BridgingHeader st))
  = existsb is_stray (diagnostics st).
Proof.
  open_header st e n o d; try (split; reflexivity).
  all: cbn [preprocess fold_left nest diagnostics]; split; try reflexivity.
  all: repeat rewrite existsb_app.
  all: repeat match goal with
              | |- context [if ?c then _ else _] => destruct c
              end; cbn [existsb is_stray orb];
         repeat rewrite orb_false_r; reflexivity.
Qed.

Lemma header_defines_guard (st : cpp) :
  leaves_alone sys "_cstdlib_shim_h" ->
  active st = true ->
  is_defined "_cstdlib_shim_h" (macros (preprocess sys BridgingHeader st)) = true.
Proof.
  intros K Hact.
  open_header st e n o d; try discriminate; try assumption.
  all: cbn [preprocess fold_left macros]; use_tests; reflexivity.
Qed.

(** X4.  The include guard: when the system headers leave the guard macro
    alone, including the header a second time changes nothing at all. *)
Theorem header_included_twice (st : cpp) :
  leaves_alone sys "_cstdlib_shim_h" ->
  preprocess sys (BridgingHeader ++ BridgingHeader) st
  = preprocess sys BridgingHeader st.
Proof.
  intros K. rewrite preprocess_app.
  destruct (active st) eqn:A.
  - apply header_skipped. right. now apply header_defines_guard.
  - rewrite (header_skipped st) by auto. apply header_skipped; auto.
Qed.

(** X5.  The four prototypes reach the compiler exactly when the guard is
    not defined yet and either [linux] or [_PTYKIT_HACK] is; otherwise the
    header declares nothing of its own. *)
Theorem header_externs (env : macro_env) :
  leaves_alone sys "_PTYKIT_HACK" ->
  externs (emitted (preprocess sys BridgingHeader (boot env)))
  = if negb (is_defined "_cstdlib_shim_h" env)
       && (is_defined "linux" env || is_defined "_PTYKIT_HACK" env)
    then hack_prototypes
    else [].
Proof.
  intros K.
  destruct (is_defined "_cstdlib_shim_h" env) eqn:G.
  - rewrite header_skipped by (right; exact G). reflexivity.
  - unfold boot, BridgingHeader. pp_run; reflexivity.
Qed.

(** X6.  [_GNU_SOURCE] is in force when the first system header is
    included exactly when [linux] is defined or [_GNU_SOURCE] was defined
    before: on Linux the feature macro precedes every system header, and
    elsewhere the header does not turn it on. *)
Theorem header_feature_macro (env : macro_env) :
  is_defined "_cstdlib_shim_h" env = false ->
  includes (emitted (preprocess sys BridgingHeader (boot env)))
  = ["stdlib.h"; "fcntl.h"; "stdio.h"] /\
  defined_at_first_include "_GNU_SOURCE"
    (emitted (preprocess sys BridgingHeader (boot env)))
  = Some (is_defined "linux" env || is_defined "_GNU_SOURCE" env).
Proof.
  intros G.
  unfold boot, BridgingHeader. pp_run.
  all: cbn [preprocess fold_left emitted app includes flat_map
            defined_at_first_include].
  all: eval_names; use_tests; split; reflexivity.
Qed.

(** X7.  On Linux the prototypes come after the three system headers, in
    the order of the header. *)
Theorem header_order (env : macro_env) :
  leaves_alone sys "_PTYKIT_HACK" ->
  is_defined "_cstdlib_shim_h" env = false ->
  is_defined "linux" env = true ->
  exists e1 e2 e3,
    emitted (preprocess sys BridgingHeader (boot env))
    = [ Seen_include "stdlib.h" e1; Seen_include "fcntl.h" e2;
        Seen_include "stdio.h" e3 ]
      ++ map Seen_extern hack_prototypes.
Proof.
  intros K G L.
  unfold boot, BridgingHeader. pp_run.
  do 3 eexists. reflexivity.
Qed.

(** X8.  The lines of the header raise a diagnostic exactly for a feature
    macro they define over another definition of it, a function-like
    macro or one with a replacement list that is not empty: [_GNU_SOURCE],
    then [_PTYKIT_HACK], and only where [linux] is defined and the guard is
    not. *)
Theorem header_diagnostics (env : macro_env) :
  diagnostics (preprocess sys BridgingHeader (boot env))
  = if negb (is_defined "_cstdlib_shim_h" env) && is_defined "linux" env
    then (if conflicts "_GNU_SOURCE" EmptyString env
          then [Redefined "_GNU_SOURCE"] else [])
         ++ (if conflicts "_PTYKIT_HACK" EmptyString env
             then [Redefined "_PTYKIT_HACK"] else [])
    else [].
Proof.
  destruct (is_defined "_cstdlib_shim_h" env) eqn:G.
  - rewrite header_skipped by (right; exact G). reflexivity.
  - unfold boot, BridgingHeader. pp_run; reflexivity.
Qed.

(** X9.  The header defines three macros and no other: a macro that is
    none of [_cstdlib_shim_h], [_GNU_SOURCE] and [_PTYKIT_HACK], and that
    the system headers leave alone, is after the header what it was
    before. *)
Theorem header_frame (m : string) (st : cpp) :
  m <> "_cstdlib_shim_h" ->
  m <> "_GNU_SOURCE" ->
  m <> "_PTYKIT_HACK" ->
  leaves_alone sys m ->
  macro_lookup m (macros (preprocess sys BridgingHeader st))
  = macro_lookup m (macros st).
Proof.
  intros N1 N2 N3 K.
  apply not_eq_sym in N1, N2, N3.
  apply String.eqb_neq in N1, N2, N3.
  open_header st e n o d; try reflexivity.
  all: cbn [preprocess fold_left macros].
  all: repeat rewrite K; repeat rewrite macro_lookup_cons.
  all: rewrite ?N1, ?N2, ?N3; reflexivity.
Qed.

End HeaderFacts.

(** ** The header on concrete systems *)

Lemma header_included_twice_glibc :
  preprocess glibc (BridgingHeader ++ BridgingHeader) (boot gnu_linux)
  = preprocess glibc BridgingHeader (boot gnu_linux).
Proof.
  apply (@header_included_twice glibc (boot gnu_linux)).
  intros h env. unfold glibc.
  destruct (is_defined "_FEATURES_H" env); reflexivity.
Defined.

Lemma header_externs_glibc :
  externs (emitted (preprocess glibc BridgingHeader (boot gnu_linux)))
  = hack_prototypes /\
  externs (emitted (preprocess glibc BridgingHeader (boot apple_darwin)))
  = [].
Proof.
  split.
  - apply (@header_externs glibc gnu_linux).
    intros h env. unfold glibc.
    destruct (is_defined "_FEATURES_H" env); reflexivity.
  - apply (@header_externs glibc apple_darwin).
    intros h env. unfold glibc.
    destruct (is_defined "_FEATURES_H" env); reflexivity.
Defined.

Lemma header_feature_macro_glibc :
  includes (emitted (preprocess glibc BridgingHeader (boot gnu_linux)))
  = ["stdlib.h"; "fcntl.h"; "stdio.h"] /\
  defined_at_first_include "_GNU_SOURCE"
    (emitted (preprocess glibc BridgingHeader (boot gnu_linux)))
  = Some true.
Proof.
  apply (@header_feature_macro glibc gnu_linux). reflexivity.
Defined.

Lemma header_order_glibc :
  exists e1 e2 e3,
    emitted (preprocess glibc BridgingHeader (boot gnu_linux))
    = [ Seen_include "stdlib.h" e1; Seen_include "fcntl.h" e2;
        Seen_include "stdio.h" e3 ]
      ++ map Seen_extern hack_prototypes.
Proof.
  apply (@header_order glibc gnu_linux); [|reflexivity|reflexivity].
  intros h env. unfold glibc.
  destruct (is_defined "_FEATURES_H" env); reflexivity.
Defined.

Lemma header_frame_glibc :
  macro_lookup "linux" (macros (preprocess glibc BridgingHeader (boot gnu_linux)))
  = Some (object_like "1").
Proof.
  apply (@header_frame glibc "linux" (boot gnu_linux));
    try discriminate.
  intros h env. unfold glibc.
  destruct (is_defined "_FEATURES_H" env); reflexivity.
Defined.

(** [_GNU_SOURCE] defined before the header: redefined over the list [1]
    and over a function-like macro, not over the same empty object-like
    macro. *)
Lemma header_diagnostics_gnu_source :
  diagnostics (preprocess glibc BridgingHeader (boot gnu_source_1))
  = [Redefined "_GNU_SOURCE"] /\
  diagnostics (preprocess glibc BridgingHeader (boot gnu_source_function_like))
  = [Redefined "_GNU_SOURCE"] /\
  diagnostics (preprocess glibc BridgingHeader (boot gnu_source_empty))
  = [].
Proof.
  split; [|split].
  - exact (header_diagnostics glibc gnu_source_1).
  - exact (header_diagnostics glibc gnu_source_function_like).
  - exact (header_diagnostics glibc gnu_source_empty).
Defined.
